(** * ASRT acoustic models (model_zoo/speech_model/keras_backend.py)

    A shallow embedding of the acoustic-model classes of the ASRT speech
    recognition tool: the interface class [BaseModel], the four CNN+CTC
    topologies built on it, checkpointing, and single-utterance inference
    followed by the clean-up of the decoded label sequence.

    Python integers are [Z]; [//] is [Z.div] (both floor for a positive
    divisor); strings are [string]; the dictionary returned by
    [get_loss_function] and the file system touched by [save_weights] and
    [load_weights] are [gmap]s keyed by strings. Tensors, feature frames
    and layer weights are opaque values: the numerical work is done by
    TensorFlow/Keras, which enters through the class [Backend]. Methods
    that touch files or call into the back end run in a state-and-error
    monad over a world that holds the files and the calls made so far. *)

From Stdlib Require Import ZArith String Ascii List Lia.
From stdpp Require Import base option list gmap strings fin_maps.

Local Open Scope Z_scope.

(** * Definitions *)

(** ** Post-decode clean-up (utils/ops.py) *)

Module Ops.

(** Modelled from the spec: [utils.ops.ctc_decode_delete_tail_blank] is
    imported by keras_backend.py but its body is not part of the sources at
    hand. The loop below follows the specification's algorithm: look at the
    last element; while it equals the blank value remove it; stop at the
    first trailing element that is not blank, or when nothing is left. The
    caller's sequence is not mutated: the loop works on its own copy. *)
Fixpoint trim_loop (fuel : nat) (s : list Z) (blank : Z) : list Z :=
  match fuel with
  | O => s
  | S fuel' =>
      match last s with
      | Some x => if Z.eqb x blank then trim_loop fuel' (removelast s) blank else s
      | None => s
      end
  end.

(** Modelled from the spec: the blank-tail trimmer [trim(S, B)]. One
    iteration per element is always enough, so the loop is run with the
    length of the input as its budget. *)
Definition ctc_decode_delete_tail_blank (s : list Z) (blank : Z) : list Z :=
  trim_loop (length s) s blank.

(** A sequence "ends in a label": it is empty or its last element is not
    the blank. *)
Definition no_tail_blank (s : list Z) (blank : Z) : Prop :=
  s = [] \/ exists p x, s = p ++ [x] /\ x <> blank.

Definition no_tail_blankb (s : list Z) (blank : Z) : bool :=
  match last s with
  | Some x => negb (Z.eqb x blank)
  | None => true
  end.

End Ops.

(** ** Python values, exceptions and effects *)

Module Py.

(** The exceptions that the modelled code can raise, directly or through
    numpy, Keras and the file system. *)
Inductive exn : Type :=
  | Exception (msg : string)
  | ValueError (msg : string)
  | TypeError
  | AttributeError
  | IndexError
  | OverflowError
  | OSError.

Inductive result (A : Type) : Type :=
  | Ok (a : A)
  | Raise (e : exn).
Arguments Ok {A} a.
Arguments Raise {A} e.

(** Computations that read and change a state [S] and may raise. The state
    reached so far survives an exception, as in Python. *)
Definition M (S A : Type) : Type := S -> result A * S.

Definition ret {S A} (a : A) : M S A := fun s => (Ok a, s).

Definition raise {S A} (e : exn) : M S A := fun s => (Raise e, s).

Definition bind {S A B} (c : M S A) (k : A -> M S B) : M S B :=
  fun s => match c s with
           | (Ok a, s') => k a s'
           | (Raise e, s') => (Raise e, s')
           end.

Definition lift {S A} (r : result A) : M S A := fun s => (r, s).

(** Sequencing of steps that touch no state. *)
Definition and_then {A B} (r : result A) (k : A -> result B) : result B :=
  match r with
  | Ok a => k a
  | Raise e => Raise e
  end.

Definition modify {S} (f : S -> S) : M S unit := fun s => (Ok tt, f s).

Definition get {S} : M S S := fun s => (Ok s, s).

(** Reading an attribute that holds [None] where an object is needed. *)
Definition attr {A} (e : exn) (o : option A) : result A :=
  match o with
  | Some a => Ok a
  | None => Raise e
  end.

(** [l[i]] for a non-negative literal index. *)
Definition index {A} (l : list A) (i : nat) : result A :=
  match l !! i with
  | Some a => Ok a
  | None => Raise IndexError
  end.

(** [for i in range(n): body], threading the value the body updates. *)
Fixpoint for_range {S A} (range : list nat) (body : nat -> A -> M S A) (a : A) : M S A :=
  match range with
  | [] => ret a
  | i :: range' => bind (body i a) (for_range range' body)
  end.

End Py.

Import Py.

Notation "'let*' x := c1 'in' c2" := (bind c1 (fun x => c2))
  (at level 10, x name, c1 at level 100, c2 at level 200).
Notation "'let?' x := r 'in' k" := (and_then r (fun x => k))
  (at level 10, x name, r at level 100, k at level 200).

(** ** The numerical back end

    Everything TensorFlow, Keras and the utterance features contribute:
    the type of one feature frame (a float64 array of shape
    [input_shape[1:]]) with its all-zero value, the values of the layers'
    parameters, tensors, the inference function of the evaluation graph,
    the CTC decoder, the installed TensorFlow version and the label value
    the trimmer treats as blank. *)
Class Backend : Type := {
  frame : Type;
  frame_zeros : Z -> Z -> frame;
  weights : Type;
  tensor : Type;
  predict : weights -> list (list frame) -> tensor;
  ctc_decode : tensor -> list Z -> bool -> Z -> Z -> list (list (list Z)) * tensor;
  tf_version : string;
  blank : Z
}.

(** A small concrete back end, used to run the model on examples: frames
    are integers, the "network" adds its parameter to the number of rows
    it is given, and the decoder answers with one path that pads the
    labels 3, 5 with two blanks (-1). *)
Definition toy_backend : Backend := {|
  frame := Z;
  frame_zeros := fun _ _ => 0;
  weights := Z;
  tensor := Z;
  predict := fun w x => w + Z.of_nat (length (concat x));
  ctc_decode := fun y _ _ _ _ => ([[[3; 5; -1; -1]]], y);
  tf_version := "2.3.0";
  blank := -1
|}.

(** ** numpy *)

Module Np.

Definition int32_min : Z := - 2 ^ 31.
Definition int32_max : Z := 2 ^ 31 - 1.

(** [a[i] = v] on an array of dtype int32: a Python integer outside the
    32-bit range is refused with OverflowError (numpy 1.24 and later;
    earlier versions wrap it around). Inside the range both agree. *)
Definition setitem_int32 (a : list Z) (i : nat) (v : Z) : result (list Z) :=
  if (int32_min <=? v) && (v <=? int32_max) then
    if (i <? length a)%nat then Ok (<[i := v]> a) else Raise IndexError
  else Raise OverflowError.

(** [np.zeros((n,), dtype=np.int32)]. *)
Definition zeros_int32 (n : Z) : result (list Z) :=
  if 0 <=? n then Ok (replicate (Z.to_nat n) 0)
  else Raise (ValueError "negative dimensions are not allowed").

(** [np.zeros((batch,) + (t, f, c), dtype=np.float64)]: [batch] rows of
    [t] all-zero frames of shape [(f, c)]. The axes below the time axis
    live inside the frame type, so only the first two lengths are looked
    at here. *)
Definition zeros `{Backend} (batch : Z) (shape : Z * Z * Z) : result (list (list frame)) :=
  let '(t, f, c) := shape in
  if (0 <=? batch) && (0 <=? t) then
    Ok (replicate (Z.to_nat batch) (replicate (Z.to_nat t) (frame_zeros f c)))
  else Raise (ValueError "negative dimensions are not allowed").

(** [row[0:stop] = value] along the first axis. The slice is clipped to
    the array, so it selects [min stop (len row)] positions. The value is
    broadcast to that shape: its length must be that number of positions,
    or 1 (the single frame is then repeated); anything else is refused
    with ValueError and nothing is written. *)
Definition setitem_slice {A} (row : list A) (stop : nat) (value : list A) : result (list A) :=
  let n := Nat.min stop (length row) in
  if (length value =? n)%nat then Ok (value ++ drop n row)
  else match value with
       | [v] => Ok (replicate n v ++ drop n row)
       | _ => Raise (ValueError "could not broadcast input array")
       end.

(** [x[i, 0:stop] = value] on a batch of rows. *)
Definition setitem_row_slice {A} (x : list (list A)) (i stop : nat) (value : list A)
  : result (list (list A)) :=
  match x !! i with
  | Some row =>
      match setitem_slice row stop value with
      | Ok row' => Ok (<[i := row']> x)
      | Raise e => Raise e
      end
  | None => Raise IndexError
  end.

End Np.

(** ** Keras models, the file system and the calls into the back end *)

Module Keras.

(** What the code fixes about a Keras [Model]: the names of its input
    layers, the pooling windows met on the way (all with [strides=None]
    and [padding="valid"]), the target of the Reshape layer, the width of
    the last Dense layer, and whether the CTC loss layer is the output. *)
Record Model : Type := {
  inputs : list string;
  pools : list Z;
  reshape : Z * Z;
  classes : Z;
  ctc_loss : bool
}.

(** A file is an HDF5 parameter file, holding the parameters of the layers
    of the graph it was written from, or a text file. *)
Inductive file `{Backend} : Type :=
  | H5 (graph : Model) (w : weights)
  | Text (s : string).

(** A call into the back end, as recorded by the world. *)
Inductive event `{Backend} : Type :=
  | Predict (w : weights) (x : list (list frame))
  | CtcDecode (y_pred : tensor) (input_length : list Z)
              (greedy : bool) (beam_width top_paths : Z).

(** The world the methods act on: the files, and the calls made into the
    back end, oldest first. *)
Record world `{Backend} : Type := {
  fs : gmap string file;
  calls : list event
}.

Definition write_file `{Backend} (path : string) (f : file) : M world unit :=
  modify (fun s => {| fs := <[path := f]> (fs s); calls := calls s |}).

Definition record `{Backend} (e : event) : M world unit :=
  modify (fun s => {| fs := fs s; calls := calls s ++ [e] |}).

(** [Model.save_weights(path)]: the parameters of the graph's layers go to
    the file [path]. *)
Definition save_weights `{Backend} (m : Model) (w : weights) (path : string) : M world unit :=
  write_file path (H5 m w).

(** [Model.load_weights(path)]: the parameters read from [path]; a missing
    file, or one that is not a parameter file, is an OSError. *)
Definition load_weights `{Backend} (m : Model) (path : string) : M world weights :=
  let* s := get in
  match fs s !! path with
  | Some (H5 _ w) => ret w
  | Some (Text _) => raise OSError
  | None => raise OSError
  end.

(** [Model.predict(x=x_in)] on a graph whose layers hold [w]. *)
Definition predict `{Backend} (m : Model) (w : weights) (x : list (list frame)) : M world tensor :=
  let* _ := record (Predict w x) in
  ret (predict w x).

(** [K.ctc_decode(y_pred, input_length, greedy, beam_width, top_paths)]. *)
Definition ctc_decode `{Backend} (y_pred : tensor) (input_length : list Z)
    (greedy : bool) (beam_width top_paths : Z) : M world (list (list (list Z)) * tensor) :=
  let* _ := record (CtcDecode y_pred input_length greedy beam_width top_paths) in
  ret (ctc_decode y_pred input_length greedy beam_width top_paths).

(** [Tensor.eval(session=...)] and [Tensor.numpy()] both hand back the
    values of a decoded tensor. *)
Definition eval (t : list (list Z)) : list (list Z) := t.
Definition numpy (t : list (list Z)) : list (list Z) := t.

(** Length of one axis after the pooling stages (window = stride, no
    padding). *)
Definition pooled (n : Z) (ps : list Z) : Z := fold_left Z.div ps n.

End Keras.

(** [open(name, 'w')], [f.write(text)], [f.close()]. *)
Definition write_text `{Backend} (name text : string) : M Keras.world unit :=
  Keras.write_file name (Keras.Text text).

(** ** The model classes *)

Inductive klass : Type :=
  | KBaseModel
  | KSpeechModel251BN
  | KSpeechModel251
  | KSpeechModel25
  | KSpeechModel24.

(** An instance: its class, its attributes ([None] is [None]; an attribute
    that was never assigned is [None] too), and the parameters held by the
    layers. The training graph [model] and the evaluation graph
    [model_base] are built from the same layer objects, so there is one
    store of parameters, [layers], seen through both. *)
Record instance `{Backend} : Type := {
  cls : klass;
  input_shape : option (Z * Z * Z);
  output_shape : option (Z * Z);
  model : option Keras.Model;
  model_base : option Keras.Model;
  _model_name : option string;
  _pool_size : option Z;
  layers : option weights
}.

Section Attributes.
Context `{Backend}.

Definition set_cls (v : klass) (self : instance) : instance :=
  {| cls := v; input_shape := input_shape self; output_shape := output_shape self;
     model := model self; model_base := model_base self;
     _model_name := _model_name self; _pool_size := _pool_size self;
     layers := layers self |}.

Definition set_input_shape (v : Z * Z * Z) (self : instance) : instance :=
  {| cls := cls self; input_shape := Some v; output_shape := output_shape self;
     model := model self; model_base := model_base self;
     _model_name := _model_name self; _pool_size := _pool_size self;
     layers := layers self |}.

Definition set_output_shape (v : Z * Z) (self : instance) : instance :=
  {| cls := cls self; input_shape := input_shape self; output_shape := Some v;
     model := model self; model_base := model_base self;
     _model_name := _model_name self; _pool_size := _pool_size self;
     layers := layers self |}.

Definition set_models (v : Keras.Model * Keras.Model) (self : instance) : instance :=
  {| cls := cls self; input_shape := input_shape self; output_shape := output_shape self;
     model := Some (fst v); model_base := Some (snd v);
     _model_name := _model_name self; _pool_size := _pool_size self;
     layers := layers self |}.

Definition set__model_name (v : string) (self : instance) : instance :=
  {| cls := cls self; input_shape := input_shape self; output_shape := output_shape self;
     model := model self; model_base := model_base self;
     _model_name := Some v; _pool_size := _pool_size self;
     layers := layers self |}.

Definition set__pool_size (v : Z) (self : instance) : instance :=
  {| cls := cls self; input_shape := input_shape self; output_shape := output_shape self;
     model := model self; model_base := model_base self;
     _model_name := _model_name self; _pool_size := Some v;
     layers := layers self |}.

Definition set_layers (v : weights) (self : instance) : instance :=
  {| cls := cls self; input_shape := input_shape self; output_shape := output_shape self;
     model := model self; model_base := model_base self;
     _model_name := _model_name self; _pool_size := _pool_size self;
     layers := Some v |}.

End Attributes.

(** [class BaseModel]: the interface; its own instances have no graphs. *)
Module BaseModel.
Section Methods.
Context `{Backend}.

Definition __init__ : instance :=
  {| cls := KBaseModel; input_shape := None; output_shape := None;
     model := None; model_base := None; _model_name := None;
     _pool_size := None; layers := None |}.

Definition get_model (self : instance) : option Keras.Model * option Keras.Model :=
  (model self, model_base self).

Definition get_train_model (self : instance) : option Keras.Model := model self.

Definition get_eval_model (self : instance) : option Keras.Model := model_base self.

Definition get_model_name (self : instance) : option string := _model_name self.

(** The parameters read go into the layers, which both graphs share; the
    instance is returned with them. *)
Definition load_weights (self : instance) (filename : string) : M Keras.world instance :=
  let* graph := lift (attr AttributeError (model self)) in
  let* w := Keras.load_weights graph filename in
  ret (set_layers w self).

Definition save_weights (self : instance) (filename : string) : M Keras.world unit :=
  let* graph := lift (attr AttributeError (model self)) in
  let* w := lift (attr AttributeError (layers self)) in
  let* _ := Keras.save_weights graph w (filename +:+ ".model.h5") in
  let* graph_base := lift (attr AttributeError (model_base self)) in
  let* _ := Keras.save_weights graph_base w (filename +:+ ".model.base.h5") in
  let* name := lift (attr TypeError (_model_name self)) in
  write_text (("epoch_" +:+ name) +:+ ".txt") filename.

Definition get_loss_function (self : instance)
  : result (gmap string (tensor -> tensor -> tensor)) :=
  Raise (Exception "method not implemented").

Definition forward (self : instance) (x : list frame) : M Keras.world (list Z) :=
  raise (Exception "method not implemented").

End Methods.
End BaseModel.

(** [class SpeechModel251BN(BaseModel)]: ten convolutions with batch normalisation. *)
Module SpeechModel251BN.
Section Methods.
Context `{Backend}.

Definition _define_model (self : instance) (input_shape' : Z * Z * Z) (output_size : Z)
  : result (Keras.Model * Keras.Model) :=
  let label_max_string_length := 64 in
  let? out := attr TypeError (output_shape self) in
  let? pool := attr AttributeError (_pool_size self) in
  let stack := [2; 2; 2; 1; 1] in
  let shape := (fst out, snd (fst input_shape') / pool * 128) in
  let model_base :=
    {| Keras.inputs := ["the_input"]; Keras.pools := stack; Keras.reshape := shape;
       Keras.classes := output_size; Keras.ctc_loss := false |} in
  let model :=
    {| Keras.inputs := ["the_input"; "the_labels"; "input_length"; "label_length"];
       Keras.pools := stack; Keras.reshape := shape;
       Keras.classes := output_size; Keras.ctc_loss := true |} in
  Ok (model, model_base).

(** [w0] is the draw of the layers' initialisers. *)
Definition __init__ (input_shape' : Z * Z * Z) (output_size : Z) (w0 : weights)
  : result instance :=
  let self := set_cls KSpeechModel251BN BaseModel.__init__ in
  let self := set_input_shape input_shape' self in
  let self := set__pool_size 8 self in
  let? pool := attr AttributeError (_pool_size self) in
  let self := set_output_shape (fst (fst input_shape') / pool, output_size) self in
  let self := set__model_name "SpeechModel251bn" self in
  let? ishape := attr TypeError (input_shape self) in
  let? oshape := attr TypeError (output_shape self) in
  let? graphs := _define_model self ishape (snd oshape) in
  Ok (set_layers w0 (set_models graphs self)).

Definition get_loss_function (self : instance)
  : result (gmap string (tensor -> tensor -> tensor)) :=
  Ok {[ "ctc" := fun y_true y_pred => y_pred ]}.

Definition forward (self : instance) (data_input : list frame) : M Keras.world (list Z) :=
  let batch_size := 1 in
  let* in_len := lift (Np.zeros_int32 batch_size) in
  let* out := lift (attr TypeError (output_shape self)) in
  let* in_len := lift (Np.setitem_int32 in_len 0 (fst out)) in
  let* ishape := lift (attr TypeError (input_shape self)) in
  let* x_in := lift (Np.zeros batch_size ishape) in
  let* x_in :=
    for_range (seq 0 (Z.to_nat batch_size))
      (fun i x => lift (Np.setitem_row_slice x i (length data_input) data_input))
      x_in in
  let* graph := lift (attr AttributeError (model_base self)) in
  let* w := lift (attr AttributeError (layers self)) in
  let* base_pred := Keras.predict graph w x_in in
  let* r := Keras.ctc_decode base_pred in_len true 100 1 in
  let* r00 := lift (index (fst r) 0) in
  let r1 := if String.eqb (substring 0 2 tf_version) "1."
            then Keras.eval r00 else Keras.numpy r00 in
  let* r10 := lift (index r1 0) in
  let speech_result := Ops.ctc_decode_delete_tail_blank r10 blank in
  ret speech_result.

End Methods.
End SpeechModel251BN.

(** [class SpeechModel251(BaseModel)]: ten convolutions with dropout. *)
Module SpeechModel251.
Section Methods.
Context `{Backend}.

Definition _define_model (self : instance) (input_shape' : Z * Z * Z) (output_size : Z)
  : result (Keras.Model * Keras.Model) :=
  let label_max_string_length := 64 in
  let? out := attr TypeError (output_shape self) in
  let? pool := attr AttributeError (_pool_size self) in
  let stack := [2; 2; 2; 1; 1] in
  let shape := (fst out, snd (fst input_shape') / pool * 128) in
  let model_base :=
    {| Keras.inputs := ["the_input"]; Keras.pools := stack; Keras.reshape := shape;
       Keras.classes := output_size; Keras.ctc_loss := false |} in
  let model :=
    {| Keras.inputs := ["the_input"; "the_labels"; "input_length"; "label_length"];
       Keras.pools := stack; Keras.reshape := shape;
       Keras.classes := output_size; Keras.ctc_loss := true |} in
  Ok (model, model_base).

(** [w0] is the draw of the layers' initialisers. *)
Definition __init__ (input_shape' : Z * Z * Z) (output_size : Z) (w0 : weights)
  : result instance :=
  let self := set_cls KSpeechModel251 BaseModel.__init__ in
  let self := set_input_shape input_shape' self in
  let self := set__pool_size 8 self in
  let? pool := attr AttributeError (_pool_size self) in
  let self := set_output_shape (fst (fst input_shape') / pool, output_size) self in
  let self := set__model_name "SpeechModel251" self in
  let? ishape := attr TypeError (input_shape self) in
  let? oshape := attr TypeError (output_shape self) in
  let? graphs := _define_model self ishape (snd oshape) in
  Ok (set_layers w0 (set_models graphs self)).

Definition get_loss_function (self : instance)
  : result (gmap string (tensor -> tensor -> tensor)) :=
  Ok {[ "ctc" := fun y_true y_pred => y_pred ]}.

Definition forward (self : instance) (data_input : list frame) : M Keras.world (list Z) :=
  let batch_size := 1 in
  let* in_len := lift (Np.zeros_int32 batch_size) in
  let* out := lift (attr TypeError (output_shape self)) in
  let* in_len := lift (Np.setitem_int32 in_len 0 (fst out)) in
  let* ishape := lift (attr TypeError (input_shape self)) in
  let* x_in := lift (Np.zeros batch_size ishape) in
  let* x_in :=
    for_range (seq 0 (Z.to_nat batch_size))
      (fun i x => lift (Np.setitem_row_slice x i (length data_input) data_input))
      x_in in
  let* graph := lift (attr AttributeError (model_base self)) in
  let* w := lift (attr AttributeError (layers self)) in
  let* base_pred := Keras.predict graph w x_in in
  let* r := Keras.ctc_decode base_pred in_len true 100 1 in
  let* r00 := lift (index (fst r) 0) in
  let r1 := if String.eqb (substring 0 2 tf_version) "1."
            then Keras.eval r00 else Keras.numpy r00 in
  let* r10 := lift (index r1 0) in
  let speech_result := Ops.ctc_decode_delete_tail_blank r10 blank in
  ret speech_result.

End Methods.
End SpeechModel251.

(** [class SpeechModel25(BaseModel)]: eight convolutions with dropout. *)
Module SpeechModel25.
Section Methods.
Context `{Backend}.

Definition _define_model (self : instance) (input_shape' : Z * Z * Z) (output_size : Z)
  : result (Keras.Model * Keras.Model) :=
  let label_max_string_length := 64 in
  let? out := attr TypeError (output_shape self) in
  let? pool := attr AttributeError (_pool_size self) in
  let stack := [2; 2; 2; 1] in
  let shape := (fst out, snd (fst input_shape') / pool * 128) in
  let model_base :=
    {| Keras.inputs := ["the_input"]; Keras.pools := stack; Keras.reshape := shape;
       Keras.classes := output_size; Keras.ctc_loss := false |} in
  let model :=
    {| Keras.inputs := ["the_input"; "the_labels"; "input_length"; "label_length"];
       Keras.pools := stack; Keras.reshape := shape;
       Keras.classes := output_size; Keras.ctc_loss := true |} in
  Ok (model, model_base).

(** [w0] is the draw of the layers' initialisers. *)
Definition __init__ (input_shape' : Z * Z * Z) (output_size : Z) (w0 : weights)
  : result instance :=
  let self := set_cls KSpeechModel25 BaseModel.__init__ in
  let self := set_input_shape input_shape' self in
  let self := set__pool_size 8 self in
  let? pool := attr AttributeError (_pool_size self) in
  let self := set_output_shape (fst (fst input_shape') / pool, output_size) self in
  let self := set__model_name "SpeechModel25" self in
  let? ishape := attr TypeError (input_shape self) in
  let? oshape := attr TypeError (output_shape self) in
  let? graphs := _define_model self ishape (snd oshape) in
  Ok (set_layers w0 (set_models graphs self)).

Definition get_loss_function (self : instance)
  : result (gmap string (tensor -> tensor -> tensor)) :=
  Ok {[ "ctc" := fun y_true y_pred => y_pred ]}.

Definition forward (self : instance) (data_input : list frame) : M Keras.world (list Z) :=
  let batch_size := 1 in
  let* in_len := lift (Np.zeros_int32 batch_size) in
  let* out := lift (attr TypeError (output_shape self)) in
  let* in_len := lift (Np.setitem_int32 in_len 0 (fst out)) in
  let* ishape := lift (attr TypeError (input_shape self)) in
  let* x_in := lift (Np.zeros batch_size ishape) in
  let* x_in :=
    for_range (seq 0 (Z.to_nat batch_size))
      (fun i x => lift (Np.setitem_row_slice x i (length data_input) data_input))
      x_in in
  let* graph := lift (attr AttributeError (model_base self)) in
  let* w := lift (attr AttributeError (layers self)) in
  let* base_pred := Keras.predict graph w x_in in
  let* r := Keras.ctc_decode base_pred in_len true 100 1 in
  let* r00 := lift (index (fst r) 0) in
  let r1 := if String.eqb (substring 0 2 tf_version) "1."
            then Keras.eval r00 else Keras.numpy r00 in
  let* r10 := lift (index r1 0) in
  let speech_result := Ops.ctc_decode_delete_tail_blank r10 blank in
  ret speech_result.

End Methods.
End SpeechModel25.

(** [class SpeechModel24(BaseModel)]: six convolutions with dropout. *)
Module SpeechModel24.
Section Methods.
Context `{Backend}.

Definition _define_model (self : instance) (input_shape' : Z * Z * Z) (output_size : Z)
  : result (Keras.Model * Keras.Model) :=
  let label_max_string_length := 64 in
  let? out := attr TypeError (output_shape self) in
  let? pool := attr AttributeError (_pool_size self) in
  let stack := [2; 2; 2] in
  let shape := (fst out, snd (fst input_shape') / pool * 128) in
  let model_base :=
    {| Keras.inputs := ["the_input"]; Keras.pools := stack; Keras.reshape := shape;
       Keras.classes := output_size; Keras.ctc_loss := false |} in
  let model :=
    {| Keras.inputs := ["the_input"; "the_labels"; "input_length"; "label_length"];
       Keras.pools := stack; Keras.reshape := shape;
       Keras.classes := output_size; Keras.ctc_loss := true |} in
  Ok (model, model_base).

(** [w0] is the draw of the layers' initialisers. *)
Definition __init__ (input_shape' : Z * Z * Z) (output_size : Z) (w0 : weights)
  : result instance :=
  let self := set_cls KSpeechModel24 BaseModel.__init__ in
  let self := set_input_shape input_shape' self in
  let self := set__pool_size 8 self in
  let? pool := attr AttributeError (_pool_size self) in
  let self := set_output_shape (fst (fst input_shape') / pool, output_size) self in
  let self := set__model_name "SpeechModel24" self in
  let? ishape := attr TypeError (input_shape self) in
  let? oshape := attr TypeError (output_shape self) in
  let? graphs := _define_model self ishape (snd oshape) in
  Ok (set_layers w0 (set_models graphs self)).

Definition get_loss_function (self : instance)
  : result (gmap string (tensor -> tensor -> tensor)) :=
  Ok {[ "ctc" := fun y_true y_pred => y_pred ]}.

Definition forward (self : instance) (data_input : list frame) : M Keras.world (list Z) :=
  let batch_size := 1 in
  let* in_len := lift (Np.zeros_int32 batch_size) in
  let* out := lift (attr TypeError (output_shape self)) in
  let* in_len := lift (Np.setitem_int32 in_len 0 (fst out)) in
  let* ishape := lift (attr TypeError (input_shape self)) in
  let* x_in := lift (Np.zeros batch_size ishape) in
  let* x_in :=
    for_range (seq 0 (Z.to_nat batch_size))
      (fun i x => lift (Np.setitem_row_slice x i (length data_input) data_input))
      x_in in
  let* graph := lift (attr AttributeError (model_base self)) in
  let* w := lift (attr AttributeError (layers self)) in
  let* base_pred := Keras.predict graph w x_in in
  let* r := Keras.ctc_decode base_pred in_len true 100 1 in
  let* r00 := lift (index (fst r) 0) in
  let r1 := if String.eqb (substring 0 2 tf_version) "1."
            then Keras.eval r00 else Keras.numpy r00 in
  let* r10 := lift (index r1 0) in
  let speech_result := Ops.ctc_decode_delete_tail_blank r10 blank in
  ret speech_result.

End Methods.
End SpeechModel24.

(** ** Method resolution and construction *)

Section Dispatch.
Context `{Backend}.

(** [self.get_loss_function()]: the method of the instance's class. *)
Definition get_loss_function (self : instance)
  : result (gmap string (tensor -> tensor -> tensor)) :=
  match cls self with
  | KBaseModel => BaseModel.get_loss_function self
  | KSpeechModel251BN => SpeechModel251BN.get_loss_function self
  | KSpeechModel251 => SpeechModel251.get_loss_function self
  | KSpeechModel25 => SpeechModel25.get_loss_function self
  | KSpeechModel24 => SpeechModel24.get_loss_function self
  end.

(** [self.forward(x)]. *)
Definition forward (self : instance) (x : list frame) : M Keras.world (list Z) :=
  match cls self with
  | KBaseModel => BaseModel.forward self x
  | KSpeechModel251BN => SpeechModel251BN.forward self x
  | KSpeechModel251 => SpeechModel251.forward self x
  | KSpeechModel25 => SpeechModel25.forward self x
  | KSpeechModel24 => SpeechModel24.forward self x
  end.

(** [save_weights] and [load_weights] are inherited by every class. *)
Definition save_weights (self : instance) (filename : string) : M Keras.world unit :=
  BaseModel.save_weights self filename.

Definition load_weights (self : instance) (filename : string) : M Keras.world instance :=
  BaseModel.load_weights self filename.

End Dispatch.

(** The four concrete topologies. *)
Inductive variant : Type :=
  | V251BN
  | V251
  | V25
  | V24.

Definition variants : list variant := [V251BN; V251; V25; V24].

(** [Variant(input_shape, output_size)]. What Keras checks while the
    layers are wired (an axis too short for the pooling windows is
    refused there) is not part of the model; statements that a
    constructor returns are made for shapes with at least 8 time steps
    and 8 features. *)
Definition new `{Backend} (v : variant) (input_shape : Z * Z * Z) (output_size : Z)
    (w0 : weights) : result instance :=
  match v with
  | V251BN => SpeechModel251BN.__init__ input_shape output_size w0
  | V251 => SpeechModel251.__init__ input_shape output_size w0
  | V25 => SpeechModel25.__init__ input_shape output_size w0
  | V24 => SpeechModel24.__init__ input_shape output_size w0
  end.

Definition default_input_shape : Z * Z * Z := (1600, 200, 1).
Definition default_output_size : Z := 1428.

Definition class_of (v : variant) : klass :=
  match v with
  | V251BN => KSpeechModel251BN
  | V251 => KSpeechModel251
  | V25 => KSpeechModel25
  | V24 => KSpeechModel24
  end.

(** The name each class stores in [_model_name]. *)
Definition model_name (v : variant) : string :=
  match v with
  | V251BN => "SpeechModel251bn"
  | V251 => "SpeechModel251"
  | V25 => "SpeechModel25"
  | V24 => "SpeechModel24"
  end.

Definition empty_world `{Backend} : Keras.world :=
  {| Keras.fs := ∅; Keras.calls := [] |}.

(** ** Observations used in the statements *)

(** The last character of a string. *)
Fixpoint string_last (s : string) : option ascii :=
  match s with
  | EmptyString => None
  | String c EmptyString => Some c
  | String _ s' => string_last s'
  end.

(** The buffers handed to [predict], and the sequence lengths handed to
    the CTC decoder, in the order of the calls. *)
Definition predict_inputs `{Backend} (evs : list Keras.event) : list (list (list frame)) :=
  omap (fun e => match e with Keras.Predict _ x => Some x | _ => None end) evs.

Definition decode_lengths `{Backend} (evs : list Keras.event) : list (list Z) :=
  omap (fun e => match e with Keras.CtcDecode _ n _ _ _ => Some n | _ => None end) evs.

(** The world after one inference: [predict] was called on the buffer [x]
    with the parameters [w], then the decoder on its answer with the
    sequence lengths [in_len]. *)
Definition after_calls `{Backend} (world : Keras.world) (w : weights)
    (x : list (list frame)) (in_len : list Z) : Keras.world :=
  {| Keras.fs := Keras.fs world;
     Keras.calls := (Keras.calls world ++ [Keras.Predict w x]) ++
                    [Keras.CtcDecode (predict w x) in_len true 100 1] |}.

(** * Properties *)

(** ** The blank-tail trimmer *)

Lemma trim_loop_nil fuel blank : Ops.trim_loop fuel [] blank = [].
Proof. destruct fuel; reflexivity. Qed.

Lemma trim_loop_snoc_blank fuel s blank :
  Ops.trim_loop (S fuel) (s ++ [blank]) blank = Ops.trim_loop fuel s blank.
Proof.
  cbn [Ops.trim_loop]. rewrite last_snoc, Z.eqb_refl.
  now rewrite removelast_last.
Qed.

Lemma trim_loop_snoc_other fuel s x blank :
  x <> blank -> Ops.trim_loop fuel (s ++ [x]) blank = s ++ [x].
Proof.
  intros Hx. destruct fuel as [|fuel]; [reflexivity|].
  cbn [Ops.trim_loop]. rewrite last_snoc.
  destruct (Z.eqb_spec x blank); [contradiction|reflexivity].
Qed.

(** The trimmer, read from the right end of the sequence. *)
Lemma trim_snoc s x blank :
  Ops.ctc_decode_delete_tail_blank (s ++ [x]) blank =
  if Z.eqb x blank then Ops.ctc_decode_delete_tail_blank s blank else s ++ [x].
Proof.
  unfold Ops.ctc_decode_delete_tail_blank.
  destruct (Z.eqb_spec x blank) as [->|Hne].
  - rewrite length_app, Nat.add_comm. cbn [length Nat.add].
    apply trim_loop_snoc_blank.
  - now apply trim_loop_snoc_other.
Qed.

Lemma trim_nil blank : Ops.ctc_decode_delete_tail_blank [] blank = [].
Proof. reflexivity. Qed.

Lemma no_tail_blankb_spec s blank :
  Ops.no_tail_blankb s blank = true <-> Ops.no_tail_blank s blank.
Proof.
  unfold Ops.no_tail_blankb, Ops.no_tail_blank.
  destruct s as [|a s] using rev_ind.
  - cbn. intuition.
  - rewrite last_snoc. split.
    + intros H. right. exists s, a. split; [reflexivity|].
      destruct (Z.eqb_spec a blank); [discriminate|assumption].
    + intros [H|(p & x & H & Hx)].
      * destruct s; discriminate.
      * apply app_inj_tail in H as [_ ->].
        destruct (Z.eqb_spec x blank); [contradiction|reflexivity].
Qed.

Lemma trim_fixed s blank :
  Ops.no_tail_blank s blank -> Ops.ctc_decode_delete_tail_blank s blank = s.
Proof.
  intros [->|(p & x & -> & Hx)]; [reflexivity|].
  rewrite trim_snoc. destruct (Z.eqb_spec x blank); [contradiction|reflexivity].
Qed.

Lemma trim_no_tail_blank s blank :
  Ops.no_tail_blank (Ops.ctc_decode_delete_tail_blank s blank) blank.
Proof.
  induction s as [|x s IH] using rev_ind.
  - now left.
  - rewrite trim_snoc. destruct (Z.eqb_spec x blank) as [->|Hne]; [exact IH|].
    right. now exists s, x.
Qed.

Lemma trim_app_blanks s n blank :
  Ops.ctc_decode_delete_tail_blank (s ++ replicate n blank) blank =
  Ops.ctc_decode_delete_tail_blank s blank.
Proof.
  induction n as [|n IH].
  - now rewrite app_nil_r.
  - rewrite replicate_S_end, app_assoc, trim_snoc, Z.eqb_refl. exact IH.
Qed.

Lemma trim_decompose s blank :
  exists n, s = Ops.ctc_decode_delete_tail_blank s blank ++ replicate n blank.
Proof.
  induction s as [|x s IH] using rev_ind.
  - now exists O.
  - rewrite trim_snoc. destruct (Z.eqb_spec x blank) as [->|Hne].
    + destruct IH as [n Hn]. exists (S n).
      rewrite replicate_S_end, app_assoc. now rewrite <- Hn.
    + exists O. now rewrite app_nil_r.
Qed.


(** C1. For every label sequence S and blank id B, the trimmer returns S
    without its maximal trailing run of B: S is the result followed by a
    run of B (so the result is a prefix of S), the result is empty or ends
    in a label other than B, every way of splitting S into a prefix and a
    run of B leaves a prefix that still contains the result (the run
    removed is the longest one), blanks before the last non-blank label
    stay in place, the empty sequence and an all-blank sequence give the
    empty sequence, and a sequence without a trailing blank comes back
    unchanged. *)
Theorem trim_removes_exactly_the_blank_tail (S : list Z) (B : Z) :
  (exists n, S = Ops.ctc_decode_delete_tail_blank S B ++ replicate n B) /\
  Ops.ctc_decode_delete_tail_blank S B `prefix_of` S /\
  Ops.no_tail_blank (Ops.ctc_decode_delete_tail_blank S B) B /\
  (forall P n, S = P ++ replicate n B ->
     exists k, P = Ops.ctc_decode_delete_tail_blank S B ++ replicate k B) /\
  (forall P x n, S = P ++ x :: replicate n B -> x <> B ->
     Ops.ctc_decode_delete_tail_blank S B = P ++ [x]) /\
  (S = [] -> Ops.ctc_decode_delete_tail_blank S B = []) /\
  (forall n, S = replicate n B -> Ops.ctc_decode_delete_tail_blank S B = []) /\
  (Ops.no_tail_blank S B -> Ops.ctc_decode_delete_tail_blank S B = S).
Proof.
  refine (conj _ (conj _ (conj _ (conj _ (conj _ (conj _ (conj _ _))))))).
  - apply trim_decompose.
  - destruct (trim_decompose S B) as [n Hn]. now exists (replicate n B).
  - apply trim_no_tail_blank.
  - intros P n ->. rewrite trim_app_blanks. apply trim_decompose.
  - intros P x n -> Hx.
    change (x :: replicate n B) with ([x] ++ replicate n B).
    rewrite app_assoc, trim_app_blanks.
    apply trim_fixed. right. now exists P, x.
  - now intros ->.
  - intros n ->.
    change (replicate n B) with ([] ++ replicate n B).
    now rewrite trim_app_blanks.
  - apply trim_fixed.
Qed.

(** The four worked examples of the specification, with blank 0, read off
    the theorem: an interior blank stays, a trailing run goes. *)
Lemma trim_removes_exactly_the_blank_tail_witness :
  Ops.ctc_decode_delete_tail_blank [3; 0; 5] 0 = [3; 0; 5] /\
  Ops.ctc_decode_delete_tail_blank [3; 5; 0; 0] 0 = [3; 5] /\
  Ops.ctc_decode_delete_tail_blank [0; 0; 0] 0 = [] /\
  Ops.ctc_decode_delete_tail_blank [] 0 = [].
Proof.
  split; [|split; [|split]].
  - apply (proj2 (proj2 (proj2 (proj2 (proj2 (proj2 (proj2
             (trim_removes_exactly_the_blank_tail [3; 0; 5] 0)))))))).
    right. exists [3; 0], 5. split; [reflexivity | lia].
  - apply (proj1 (proj2 (proj2 (proj2 (proj2
             (trim_removes_exactly_the_blank_tail [3; 5; 0; 0] 0))))) [3] 5 2%nat);
      [reflexivity | lia].
  - apply (proj1 (proj2 (proj2 (proj2 (proj2 (proj2 (proj2
             (trim_removes_exactly_the_blank_tail [0; 0; 0] 0))))))) 3%nat).
    reflexivity.
  - apply (proj1 (proj2 (proj2 (proj2 (proj2 (proj2
             (trim_removes_exactly_the_blank_tail [] 0))))))).
    reflexivity.
Defined.

(** C2. The trimmer is idempotent: trimming a trimmed sequence changes
    nothing, for every label sequence S and blank id B. *)
Theorem trim_idempotent (S : list Z) (B : Z) :
  Ops.ctc_decode_delete_tail_blank (Ops.ctc_decode_delete_tail_blank S B) B =
  Ops.ctc_decode_delete_tail_blank S B.
Proof. apply trim_fixed, trim_no_tail_blank. Qed.

(** ** File names *)

Lemma append_inv_head (a b c : string) : a +:+ b = a +:+ c -> b = c.
Proof. induction a as [|x a IH]; cbn; [easy|]. intros [= E]. now apply IH. Qed.

Lemma string_last_append (a b : string) :
  b <> EmptyString -> string_last (a +:+ b) = string_last b.
Proof.
  intros Hb. induction a as [|x a IH]; [reflexivity|].
  change (String x a +:+ b) with (String x (a +:+ b)).
  destruct (a +:+ b) as [|c r] eqn:E.
  - destruct a; [cbn in E; contradiction | discriminate].
  - rewrite <- IH. reflexivity.
Qed.

Lemma train_file_not_base_file (P : string) :
  P +:+ ".model.h5" <> P +:+ ".model.base.h5".
Proof. intros E. apply append_inv_head in E. discriminate. Qed.

Lemma marker_not_h5 (name P ext : string) :
  string_last ext = Some "5"%char ->
  ("epoch_" +:+ name) +:+ ".txt" <> P +:+ ext.
Proof.
  intros Hext E. apply (f_equal string_last) in E.
  rewrite !string_last_append in E; [| |discriminate].
  - rewrite Hext in E. discriminate.
  - intros ->. discriminate.
Qed.

(** ** numpy steps *)

Lemma setitem_int32_cases L :
  Np.setitem_int32 [0] 0 L = Ok [L] \/ Np.setitem_int32 [0] 0 L = Raise OverflowError.
Proof.
  unfold Np.setitem_int32.
  destruct ((Np.int32_min <=? L) && (L <=? Np.int32_max)); [left|right]; reflexivity.
Qed.

Lemma setitem_int32_fits L :
  Np.int32_min <= L <= Np.int32_max -> Np.setitem_int32 [0] 0 L = Ok [L].
Proof.
  intros HL. unfold Np.setitem_int32.
  destruct (Z.leb_spec Np.int32_min L); [|lia].
  destruct (Z.leb_spec L Np.int32_max); [|lia]. reflexivity.
Qed.

Lemma setitem_slice_fits {A} (row value : list A) :
  (length value <= length row)%nat ->
  Np.setitem_slice row (length value) value = Ok (value ++ drop (length value) row).
Proof.
  intros Hle. unfold Np.setitem_slice.
  rewrite Nat.min_l by exact Hle. now rewrite Nat.eqb_refl.
Qed.

Lemma setitem_slice_long {A} (row value : list A) :
  (length row < length value)%nat -> length row <> O ->
  exists msg, Np.setitem_slice row (length value) value = Raise (ValueError msg).
Proof.
  intros Hlt Hne. unfold Np.setitem_slice.
  rewrite Nat.min_r by lia.
  destruct (Nat.eqb_spec (length value) (length row)) as [Heq|_]; [lia|].
  destruct value as [|v [|v' value]]; cbn in Hlt; [lia|lia|].
  eexists. reflexivity.
Qed.

(** The one case in which a longer value gets through: a single frame
    broadcast into a buffer without positions. *)
Lemma setitem_slice_empty_row {A} (v : A) :
  Np.setitem_slice [] 1 [v] = Ok [].
Proof. reflexivity. Qed.

Section Facts.
Context `{Backend}.

Lemma zeros_row T F C :
  0 <= T -> Np.zeros 1 (T, F, C) = Ok [replicate (Z.to_nat T) (frame_zeros F C)].
Proof.
  intros HT. unfold Np.zeros. cbn [Z.leb andb].
  destruct (Z.leb_spec 0 T); [reflexivity|lia].
Qed.

Lemma zeros_negative T F C :
  T < 0 -> exists msg, Np.zeros 1 (T, F, C) = Raise (ValueError msg).
Proof.
  intros HT. unfold Np.zeros. cbn [Z.leb andb].
  destruct (Z.leb_spec 0 T); [lia|]. eexists. reflexivity.
Qed.

(** ** Construction *)

(** A goal [new v s o w = Ok m -> ...] is settled class by class: running
    the constructor shows the instance it returns. *)
Ltac built_by v := destruct v; cbn; intros [= <-]; cbn.

Lemma new_inv v s o w m :
  new v s o w = Ok m ->
  cls m = class_of v /\ input_shape m = Some s /\
  output_shape m = Some (fst (fst s) / 8, o) /\ _pool_size m = Some 8 /\
  _model_name m = Some (model_name v) /\ layers m = Some w /\
  (exists g, model m = Some g /\ Keras.ctc_loss g = true) /\
  (exists g, model_base m = Some g /\ Keras.ctc_loss g = false).
Proof. built_by v; repeat split; eauto. Qed.

Lemma class_of_concrete v : class_of v <> KBaseModel.
Proof. destruct v; discriminate. Qed.

(** The pooling stages of every topology shrink an axis by the factor
    stored in [_pool_size], and the Reshape layer asks for that length. *)
Lemma pooling_agrees_with_pool_size v s o w m g :
  new v s o w = Ok m -> model_base m = Some g ->
  Keras.pooled (fst (fst s)) (Keras.pools g) = fst (fst s) / 8 /\
  fst (Keras.reshape g) = fst (fst s) / 8.
Proof.
  built_by v; intros [= <-]; cbn;
    rewrite ?Z.div_1_r, !Z.div_div by lia; split; reflexivity.
Qed.

(** ** Inference *)

(** The four classes carry the same [forward]. *)
Lemma forward_concrete m data :
  cls m <> KBaseModel -> forward m data = SpeechModel251BN.forward m data.
Proof. unfold forward. destruct (cls m); [contradiction|reflexivity..]. Qed.

(** [forward], step by step: it stops at the first numpy step that
    raises, before anything is handed to the back end; otherwise it calls
    [predict] on the filled buffer and the decoder on the result. *)
Lemma forward_steps m T F C L o g w data world :
  input_shape m = Some (T, F, C) -> output_shape m = Some (L, o) ->
  model_base m = Some g -> layers m = Some w ->
  match Np.setitem_int32 [0] 0 L with
  | Raise e => SpeechModel251BN.forward m data world = (Raise e, world)
  | Ok in_len =>
    match Np.zeros 1 (T, F, C) with
    | Raise e => SpeechModel251BN.forward m data world = (Raise e, world)
    | Ok x =>
      match Np.setitem_row_slice x 0 (length data) data with
      | Raise e => SpeechModel251BN.forward m data world = (Raise e, world)
      | Ok x' =>
          snd (SpeechModel251BN.forward m data world) = after_calls world w x' in_len
      end
    end
  end.
Proof.
  intros Hi Ho Hg Hw.
  unfold SpeechModel251BN.forward.
  rewrite Hi, Ho, Hg, Hw. cbn [attr fst].
  change (Np.zeros_int32 1) with (Ok [0] : result (list Z)).
  change (Z.to_nat 1) with 1%nat. cbn [seq for_range].
  unfold bind, lift, ret. cbn [fst].
  destruct (Np.setitem_int32 [0] 0 L) as [in_len|e]; [|reflexivity].
  destruct (Np.zeros 1 (T, F, C)) as [x|e]; [|reflexivity].
  destruct (Np.setitem_row_slice x 0 (length data) data) as [x'|e]; [|reflexivity].
  cbn.
  destruct (index _ 0) as [r00|e]; [|reflexivity].
  destruct (index _ 0) as [r10|e]; reflexivity.
Qed.

(** A sequence that fits: the buffer is the sequence followed by zero
    frames, and the decoder is given the stored output length. *)
Lemma forward_fits v T F C o w m data world :
  new v (T, F, C) o w = Ok m ->
  Z.of_nat (length data) <= T ->
  T / 8 <= Np.int32_max ->
  snd (forward m data world) =
  after_calls world w
    [data ++ replicate (Z.to_nat T - length data) (frame_zeros F C)] [T / 8].
Proof.
  intros Hnew Hn HL.
  destruct (new_inv _ _ _ _ _ Hnew) as (Hc & Hi & Ho & _ & _ & Hw & _ & (g & Hg & _)).
  rewrite forward_concrete by (rewrite Hc; apply class_of_concrete).
  pose proof (forward_steps m T F C _ o g w data world Hi Ho Hg Hw) as Hs.
  cbn [fst] in Hs.
  rewrite setitem_int32_fits in Hs.
  2:{ unfold Np.int32_min. split; [|exact HL].
      transitivity 0; [lia|]. apply Z.div_pos; lia. }
  rewrite zeros_row in Hs by lia.
  unfold Np.setitem_row_slice in Hs. cbn [lookup list_lookup] in Hs.
  rewrite setitem_slice_fits in Hs by (rewrite length_replicate; lia).
  rewrite drop_replicate in Hs. exact Hs.
Qed.


(** ** Checkpoints *)

Lemma save_weights_run v s o w m P world :
  new v s o w = Ok m ->
  exists g gb,
    model m = Some g /\ model_base m = Some gb /\
    save_weights m P world =
    (Ok tt,
     {| Keras.fs :=
          <[("epoch_" +:+ model_name v) +:+ ".txt" := Keras.Text P]>
            (<[P +:+ ".model.base.h5" := Keras.H5 gb w]>
               (<[P +:+ ".model.h5" := Keras.H5 g w]> (Keras.fs world)));
        Keras.calls := Keras.calls world |}).
Proof.
  built_by v; do 2 eexists; (split; [reflexivity|split; reflexivity]).
Qed.

Lemma load_weights_run m g path world :
  model m = Some g ->
  load_weights m path world =
  match Keras.fs world !! path with
  | Some (Keras.H5 _ w) => (Ok (set_layers w m), world)
  | _ => (Raise OSError, world)
  end.
Proof.
  intros Hg. unfold load_weights, BaseModel.load_weights. rewrite Hg.
  cbn [attr]. unfold bind, lift, Keras.load_weights, bind, get, ret, raise.
  destruct (Keras.fs world !! path) as [[g' w|t]|]; reflexivity.
Qed.

Lemma set_layers_new v s o w w' m :
  new v s o w = Ok m -> set_layers w (set_layers w' m) = m.
Proof. built_by v; reflexivity. Qed.


Lemma predict_inputs_after_calls world w x in_len :
  predict_inputs (Keras.calls (after_calls world w x in_len)) =
  predict_inputs (Keras.calls world) ++ [x].
Proof.
  unfold predict_inputs, after_calls. cbn [Keras.calls].
  rewrite !omap_app. cbn. now rewrite app_nil_r.
Qed.

Lemma decode_lengths_after_calls world w x in_len :
  decode_lengths (Keras.calls (after_calls world w x in_len)) =
  decode_lengths (Keras.calls world) ++ [in_len].
Proof.
  unfold decode_lengths, after_calls. cbn [Keras.calls].
  rewrite !omap_app. cbn. now rewrite app_nil_r.
Qed.

Lemma saved_train_file v s o w m P world :
  new v s o w = Ok m ->
  exists g, model m = Some g /\
    Keras.fs (snd (save_weights m P world)) !! (P +:+ ".model.h5") = Some (Keras.H5 g w).
Proof.
  intros Hnew.
  destruct (save_weights_run v s o w m P world Hnew) as (g & gb & Hg & _ & Hrun).
  exists g. split; [exact Hg|]. rewrite Hrun. cbn [snd Keras.fs].
  rewrite lookup_insert_ne by (apply marker_not_h5; reflexivity).
  rewrite lookup_insert_ne
    by (intros E; apply (train_file_not_base_file P); now symmetry).
  apply lookup_insert_eq.
Qed.

(** ** The claims about the model classes *)

(** C3. For each of the four concrete topologies and every input shape
    the constructor accepts (at least 8 time steps and 8 features, which
    the three pooling stages by two need, at least one channel and one
    output class), the constructor returns a model that stores the input
    shape unchanged and a pooling factor of 8, and reports as output
    sequence length the floor of the maximum input length divided by 8:
    output_shape[0] = input_shape[0] // 8, the largest integer whose
    eightfold does not exceed the input length. *)
Theorem output_length_is_input_length_div_8 v T F C o w :
  8 <= T -> 8 <= F -> 1 <= C -> 1 <= o ->
  exists m, new v (T, F, C) o w = Ok m /\
    input_shape m = Some (T, F, C) /\ _pool_size m = Some 8 /\
    exists len, output_shape m = Some (len, o) /\
                len = T / 8 /\
                8 * len <= T < 8 * len + 8.
Proof.
  intros _ _ _ _.
  assert (Hnew : exists m, new v (T, F, C) o w = Ok m)
    by (destruct v; cbn; eauto).
  destruct Hnew as [m Hnew]. exists m. split; [exact Hnew|].
  destruct (new_inv _ _ _ _ _ Hnew) as (_ & Hi & Ho & Hp & _).
  split; [exact Hi|]. split; [exact Hp|]. cbn [fst] in Ho.
  exists (T / 8). split; [exact Ho|]. split; [reflexivity|].
  pose proof (Z.mul_div_le T 8 ltac:(lia)).
  pose proof (Z.mul_succ_div_gt T 8 ltac:(lia)). lia.
Qed.

(** C4. On an instance whose class is BaseModel itself, get_loss_function
    and forward both raise Exception("method not implemented"), at once:
    nothing is returned and the world is left as it was. *)
Theorem base_model_methods_not_implemented (self : instance) (x : list frame)
    (world : Keras.world) :
  cls self = KBaseModel ->
  get_loss_function self = Raise (Exception "method not implemented") /\
  forward self x world = (Raise (Exception "method not implemented"), world).
Proof.
  intros Hc. unfold get_loss_function, forward. rewrite Hc. split; reflexivity.
Qed.

(** C5. forward on a feature sequence strictly longer than the maximum
    input length raises (ValueError from the copy into the buffer, or
    OverflowError earlier if the output length does not fit the int32
    array) and leaves the world untouched: no truncated or overrun buffer
    is ever handed to the network. The statement is about models with a
    time axis that is not empty, where the error is numpy's; into a
    buffer without positions numpy broadcasts a one-frame value
    ([setitem_slice_empty_row]), and what happens then is decided inside
    Keras, which is not modelled. *)
Theorem forward_rejects_overlong_input v s o w m (data : list frame)
    (world : Keras.world) :
  new v s o w = Ok m ->
  fst (fst s) < Z.of_nat (length data) ->
  fst (fst s) <> 0 ->
  exists e, forward m data world = (Raise e, world) /\
            (e = OverflowError \/ exists msg, e = ValueError msg).
Proof.
  intros Hnew Hlong Hnz. destruct s as [[T F] C]. cbn [fst] in *.
  destruct (new_inv _ _ _ _ _ Hnew) as (Hc & Hi & Ho & _ & _ & Hw & _ & (g & Hg & _)).
  rewrite forward_concrete by (rewrite Hc; apply class_of_concrete).
  pose proof (forward_steps m T F C _ o g w data world Hi Ho Hg Hw) as Hs.
  cbn [fst] in Hs.
  destruct (setitem_int32_cases (T / 8)) as [E|E]; rewrite E in Hs.
  2:{ exists OverflowError. split; [exact Hs|now left]. }
  destruct (Z.lt_ge_cases T 0) as [Hneg|Hpos].
  { destruct (zeros_negative T F C Hneg) as [msg Ez]. rewrite Ez in Hs.
    exists (ValueError msg). split; [exact Hs|right; now exists msg]. }
  rewrite zeros_row in Hs by exact Hpos.
  unfold Np.setitem_row_slice in Hs. cbn [lookup list_lookup] in Hs.
  destruct (setitem_slice_long (replicate (Z.to_nat T) (frame_zeros F C)) data)
    as [msg Es].
  - rewrite length_replicate. lia.
  - rewrite length_replicate. lia.
  - rewrite Es in Hs. exists (ValueError msg). split; [exact Hs|right; now exists msg].
Qed.

(** C6. For a feature sequence of length n not above the maximum input
    length T (with T // 8 inside the int32 range of the length array),
    forward hands the network one buffer of exactly T frames: positions
    0..n-1 hold the input frames and every position from n on holds the
    zero frame. *)
Theorem forward_pads_with_zeros v T F C o w m (data : list frame)
    (world : Keras.world) :
  new v (T, F, C) o w = Ok m ->
  Z.of_nat (length data) <= T ->
  T / 8 <= Np.int32_max ->
  exists buf,
    predict_inputs (Keras.calls (snd (forward m data world))) =
      predict_inputs (Keras.calls world) ++ [[buf]] /\
    Z.of_nat (length buf) = T /\
    (forall i, (i < length data)%nat -> buf !! i = data !! i) /\
    (forall i, (length data <= i)%nat -> Z.of_nat i < T ->
               buf !! i = Some (frame_zeros F C)).
Proof.
  intros Hnew Hn HL.
  exists (data ++ replicate (Z.to_nat T - length data) (frame_zeros F C)).
  rewrite (forward_fits _ _ _ _ _ _ _ _ _ Hnew Hn HL), predict_inputs_after_calls.
  split; [reflexivity|]. split; [|split].
  - rewrite length_app, length_replicate. lia.
  - intros i Hi. now apply lookup_app_l.
  - intros i Hi HiT. rewrite lookup_app_r by exact Hi.
    apply lookup_replicate_2. lia.
Qed.

(** C7. For each concrete topology, get_loss_function returns a
    dictionary whose only key is 'ctc', bound to a function that returns
    its second argument y_pred unchanged, whatever y_true is. *)
Theorem concrete_loss_returns_y_pred v s o w m :
  new v s o w = Ok m ->
  exists d f,
    get_loss_function m = Ok d /\ dom d = {["ctc"]} /\ d !! "ctc" = Some f /\
    forall y_true y_pred : tensor, f y_true y_pred = y_pred.
Proof.
  intros Hnew. exists {[ "ctc" := fun _ y_pred => y_pred ]}, (fun _ y_pred => y_pred).
  split; [|split; [|split]].
  - revert Hnew. built_by v; reflexivity.
  - apply dom_singleton_L.
  - apply lookup_singleton_eq.
  - reflexivity.
Qed.

(** C8. On a concrete model, save_weights with base path P succeeds and
    changes exactly three files, which are pairwise distinct: P +
    '.model.h5' receives the parameters of the training graph, P +
    '.model.base.h5' those of the inference graph, and 'epoch_' + model
    name + '.txt' receives the text P. Every other file is as before. *)
Theorem save_weights_writes_three_files v s o w m (P : string) (world : Keras.world) :
  new v s o w = Ok m ->
  exists world' g gb,
    save_weights m P world = (Ok tt, world') /\
    model m = Some g /\ model_base m = Some gb /\
    Keras.fs world' !! (P +:+ ".model.h5") = Some (Keras.H5 g w) /\
    Keras.fs world' !! (P +:+ ".model.base.h5") = Some (Keras.H5 gb w) /\
    Keras.fs world' !! (("epoch_" +:+ model_name v) +:+ ".txt") = Some (Keras.Text P) /\
    P +:+ ".model.h5" <> P +:+ ".model.base.h5" /\
    ("epoch_" +:+ model_name v) +:+ ".txt" <> P +:+ ".model.h5" /\
    ("epoch_" +:+ model_name v) +:+ ".txt" <> P +:+ ".model.base.h5" /\
    (forall q, q <> P +:+ ".model.h5" -> q <> P +:+ ".model.base.h5" ->
               q <> ("epoch_" +:+ model_name v) +:+ ".txt" ->
               Keras.fs world' !! q = Keras.fs world !! q) /\
    Keras.calls world' = Keras.calls world.
Proof.
  intros Hnew.
  destruct (save_weights_run v s o w m P world Hnew) as (g & gb & Hg & Hgb & Hrun).
  pose proof (train_file_not_base_file P) as H1.
  pose proof (marker_not_h5 (model_name v) P ".model.h5" eq_refl) as H2.
  pose proof (marker_not_h5 (model_name v) P ".model.base.h5" eq_refl) as H3.
  eexists _, g, gb. split; [exact Hrun|]. cbn [Keras.fs Keras.calls].
  repeat (split; [first [assumption | reflexivity | idtac]|]); [ | | | |reflexivity].
  - rewrite lookup_insert_ne by exact H2.
    rewrite lookup_insert_ne by (intros E; apply H1; now symmetry).
    apply lookup_insert_eq.
  - rewrite lookup_insert_ne by exact H3. apply lookup_insert_eq.
  - apply lookup_insert_eq.
  - intros q Hq1 Hq2 Hq3.
    rewrite !lookup_insert_ne by (intros E; symmetry in E; contradiction).
    reflexivity.
Qed.

(** C9, amended. After save_weights(P) on a concrete model, load_weights
    on P + '.model.h5', the training-graph file that save_weights(P)
    wrote, succeeds and puts back exactly the parameters the model held
    when it was saved, whatever they have become in between; forward then
    behaves as before saving on every input and in every world. *)
Theorem load_saved_train_file_restores v s o w m (P : string)
    (world world' : Keras.world) (w' : weights) :
  new v s o w = Ok m ->
  save_weights m P world = (Ok tt, world') ->
  exists m',
    load_weights (set_layers w' m) (P +:+ ".model.h5") world' = (Ok m', world') /\
    layers m' = Some w /\
    forall data ws, forward m' data ws = forward m data ws.
Proof.
  intros Hnew Hsave.
  destruct (saved_train_file v s o w m P world Hnew) as (g & Hg & Hlk).
  rewrite Hsave in Hlk. cbn [snd] in Hlk.
  exists m. split; [|split].
  - rewrite (load_weights_run _ g) by exact Hg. rewrite Hlk.
    now rewrite (set_layers_new _ _ _ _ _ _ Hnew).
  - now destruct (new_inv _ _ _ _ _ Hnew) as (_ & _ & _ & _ & _ & Hw & _).
  - reflexivity.
Qed.

(** C10. For a feature sequence of any length n not above the maximum
    input length T (with T // 8 inside the int32 range), forward calls
    the CTC decoder once, with the sequence length output_shape[0] = T //
    8: the value does not depend on the sequence. *)
Theorem forward_decodes_with_output_length v T F C o w m (data : list frame)
    (world : Keras.world) :
  new v (T, F, C) o w = Ok m ->
  Z.of_nat (length data) <= T ->
  T / 8 <= Np.int32_max ->
  output_shape m = Some (T / 8, o) /\
  decode_lengths (Keras.calls (snd (forward m data world))) =
    decode_lengths (Keras.calls world) ++ [[T / 8]].
Proof.
  intros Hnew Hn HL. split.
  - now destruct (new_inv _ _ _ _ _ Hnew) as (_ & _ & Ho & _).
  - now rewrite (forward_fits _ _ _ _ _ _ _ _ _ Hnew Hn HL), decode_lengths_after_calls.
Qed.

End Facts.

(** * Further properties of the code *)

(** ** More on file names *)

Lemma append_cons (x : ascii) (a b : string) :
  String x a +:+ b = String x (a +:+ b).
Proof. reflexivity. Qed.

Lemma append_length (a b : string) :
  String.length (a +:+ b) = (String.length a + String.length b)%nat.
Proof.
  induction a as [|x a IH]; [reflexivity|].
  rewrite append_cons. cbn [String.length]. now rewrite IH.
Qed.

Lemma append_assoc (a b c : string) : (a +:+ b) +:+ c = a +:+ (b +:+ c).
Proof.
  induction a as [|x a IH]; [reflexivity|].
  rewrite !append_cons. now rewrite IH.
Qed.

(** Two strings that agree as wholes and end in suffixes of one length
    agree part by part. *)
Lemma append_eq_split (a b s t : string) :
  a +:+ s = b +:+ t -> String.length s = String.length t -> a = b /\ s = t.
Proof.
  revert b. induction a as [|x a IH]; intros [|y b] E Hlen.
  - now split.
  - apply (f_equal String.length) in E.
    rewrite !append_length in E. cbn [String.length] in E. lia.
  - apply (f_equal String.length) in E.
    rewrite !append_length in E. cbn [String.length] in E. lia.
  - rewrite !append_cons in E. injection E as -> E.
    destruct (IH b E Hlen) as [-> ->]. now split.
Qed.

Lemma train_file_injective (P Q : string) :
  P +:+ ".model.h5" = Q +:+ ".model.h5" -> P = Q.
Proof. intros E. now apply append_eq_split in E. Qed.

Lemma base_file_injective (P Q : string) :
  P +:+ ".model.base.h5" = Q +:+ ".model.base.h5" -> P = Q.
Proof. intros E. now apply append_eq_split in E. Qed.

Lemma train_file_never_base_file (P Q : string) :
  P +:+ ".model.h5" <> Q +:+ ".model.base.h5".
Proof.
  intros E.
  change (Q +:+ ".model.base.h5") with (Q +:+ (".mode" +:+ "l.base.h5")) in E.
  rewrite <- append_assoc in E.
  apply append_eq_split in E as [_ E]; [discriminate|reflexivity].
Qed.

Lemma marker_files_distinct (v1 v2 : variant) :
  v1 <> v2 ->
  ("epoch_" +:+ model_name v1) +:+ ".txt" <> ("epoch_" +:+ model_name v2) +:+ ".txt".
Proof. destruct v1, v2; intros Hne; try contradiction; discriminate. Qed.

(** Running the constructor of each class in turn. *)
Ltac by_class v := destruct v; cbn; intros [= <-]; cbn.

Section Coverage.
Context `{Backend}.

(** ** Graphs and shapes *)

(** X1. In every constructed model the two graphs are cut from one layer
    stack (same pooling windows, same Reshape target, same width of the
    last Dense layer); the Reshape target is what the pooling stages leave
    of the time axis and, times the 128 channels, of the feature axis, for
    every input shape; the reported output shape is that time length and
    the width of the last Dense layer; the evaluation graph reads only
    'the_input' and has no loss layer, the training graph adds the three
    CTC inputs and ends in the loss. *)
Theorem graphs_agree_with_declared_shapes v T F C o w m :
  new v (T, F, C) o w = Ok m ->
  exists g gb,
    model m = Some g /\ model_base m = Some gb /\
    Keras.pools g = Keras.pools gb /\
    Keras.reshape g = Keras.reshape gb /\
    Keras.classes g = Keras.classes gb /\
    Keras.reshape gb =
      (Keras.pooled T (Keras.pools gb), Keras.pooled F (Keras.pools gb) * 128) /\
    output_shape m = Some (Keras.pooled T (Keras.pools gb), Keras.classes gb) /\
    Keras.inputs gb = ["the_input"] /\ Keras.ctc_loss gb = false /\
    Keras.inputs g = ["the_input"; "the_labels"; "input_length"; "label_length"] /\
    Keras.ctc_loss g = true.
Proof.
  by_class v; do 2 eexists; (split; [reflexivity|]); (split; [reflexivity|]);
    cbn; rewrite ?Z.div_1_r, !Z.div_div by lia; repeat split; reflexivity.
Qed.

(** ** Checkpoints *)

Lemma new_set_layers v s o w w' m :
  new v s o w = Ok m -> new v s o w' = Ok (set_layers w' m).
Proof. by_class v; reflexivity. Qed.

(** X2. On an instance whose [model] attribute is None, which is how
    BaseModel() leaves it, save_weights and load_weights raise
    AttributeError at their first step: no file is written or read. *)
Theorem checkpointing_without_graphs_raises (self : instance) (filename : string)
    (world : Keras.world) :
  model self = None ->
  save_weights self filename world = (Raise AttributeError, world) /\
  load_weights self filename world = (Raise AttributeError, world).
Proof.
  intros Hm.
  unfold save_weights, load_weights, BaseModel.save_weights, BaseModel.load_weights.
  rewrite Hm. split; reflexivity.
Qed.


(** X6. Saving under a second base path Q keeps the checkpoint saved under
    P: after save_weights(P), a change of the parameters and
    save_weights(Q) with Q different from P, the two files of P still hold
    the parameters saved first, the two files of Q hold the later ones,
    and the marker file names Q, the checkpoint saved last. *)
Theorem second_checkpoint_keeps_first v s o w m (P Q : string)
    (world : Keras.world) (w2 : weights) :
  new v s o w = Ok m ->
  P <> Q ->
  exists g gb world2,
    model m = Some g /\ model_base m = Some gb /\
    save_weights (set_layers w2 m) Q (snd (save_weights m P world)) = (Ok tt, world2) /\
    Keras.fs world2 !! (P +:+ ".model.h5") = Some (Keras.H5 g w) /\
    Keras.fs world2 !! (P +:+ ".model.base.h5") = Some (Keras.H5 gb w) /\
    Keras.fs world2 !! (Q +:+ ".model.h5") = Some (Keras.H5 g w2) /\
    Keras.fs world2 !! (Q +:+ ".model.base.h5") = Some (Keras.H5 gb w2) /\
    Keras.fs world2 !! (("epoch_" +:+ model_name v) +:+ ".txt") = Some (Keras.Text Q).
Proof.
  intros Hnew HPQ.
  destruct (save_weights_run v s o w m P world Hnew) as (g & gb & Hg & Hgb & Hrun).
  destruct (save_weights_run v s o w2 (set_layers w2 m) Q
              (snd (save_weights m P world)) (new_set_layers _ _ _ _ _ _ Hnew))
    as (g' & gb' & Hg' & Hgb' & Hrun2).
  cbn [set_layers model model_base] in Hg', Hgb'.
  rewrite Hg in Hg'. rewrite Hgb in Hgb'.
  injection Hg' as <-. injection Hgb' as <-.
  exists g, gb. eexists. split; [exact Hg|]. split; [exact Hgb|].
  split; [exact Hrun2|]. cbn [Keras.fs]. rewrite Hrun. cbn [snd Keras.fs].
  pose proof (marker_not_h5 (model_name v) P ".model.h5" eq_refl) as M1.
  pose proof (marker_not_h5 (model_name v) P ".model.base.h5" eq_refl) as M2.
  pose proof (marker_not_h5 (model_name v) Q ".model.h5" eq_refl) as M3.
  pose proof (marker_not_h5 (model_name v) Q ".model.base.h5" eq_refl) as M4.
  pose proof (train_file_never_base_file P Q) as N1.
  pose proof (train_file_never_base_file Q P) as N2.
  pose proof (train_file_never_base_file P P) as N3.
  pose proof (train_file_never_base_file Q Q) as N4.
  assert (N5 : P +:+ ".model.h5" <> Q +:+ ".model.h5")
    by (intros E; apply HPQ; now apply train_file_injective).
  assert (N6 : P +:+ ".model.base.h5" <> Q +:+ ".model.base.h5")
    by (intros E; apply HPQ; now apply base_file_injective).
  repeat split; simplify_map_eq; reflexivity.
Qed.

(** X7. Saving again under the same base path replaces the checkpoint
    without a trace: the world after save_weights(P), a change of the
    parameters and a second save_weights(P) is the world a single
    save_weights(P) of the later parameters gives. With unchanged
    parameters, saving twice is saving once. *)
Theorem save_weights_overwrites v s o w m (P : string) (world : Keras.world)
    (w2 : weights) :
  new v s o w = Ok m ->
  save_weights (set_layers w2 m) P (snd (save_weights m P world)) =
    save_weights (set_layers w2 m) P world /\
  save_weights m P (snd (save_weights m P world)) = save_weights m P world.
Proof.
  intros Hnew.
  assert (Hgen : forall w3 m3, new v s o w3 = Ok m3 ->
            save_weights m3 P (snd (save_weights m P world)) = save_weights m3 P world).
  { intros w3 m3 Hnew3.
    destruct (save_weights_run v s o w m P world Hnew) as (g & gb & _ & _ & Hrun).
    destruct (save_weights_run v s o w3 m3 P world Hnew3) as (g3 & gb3 & _ & _ & Hrun3).
    destruct (save_weights_run v s o w3 m3 P (snd (save_weights m P world)) Hnew3)
      as (g4 & gb4 & Hg4 & Hgb4 & Hrun4).
    destruct (save_weights_run v s o w3 m3 P world Hnew3) as (g5 & gb5 & Hg5 & Hgb5 & Hrun5).
    rewrite Hg4 in Hg5. rewrite Hgb4 in Hgb5.
    injection Hg5 as <-. injection Hgb5 as <-.
    rewrite Hrun4, Hrun5, Hrun. cbn [snd Keras.fs Keras.calls].
    f_equal. f_equal.
    pose proof (marker_not_h5 (model_name v) P ".model.h5" eq_refl) as M1.
    pose proof (marker_not_h5 (model_name v) P ".model.base.h5" eq_refl) as M2.
    pose proof (train_file_never_base_file P P) as N3.
    apply map_eq. intros q.
    destruct (decide (q = ("epoch_" +:+ model_name v) +:+ ".txt")) as [->|D1];
      [now simplify_map_eq|].
    destruct (decide (q = P +:+ ".model.base.h5")) as [->|D2]; [now simplify_map_eq|].
    destruct (decide (q = P +:+ ".model.h5")) as [->|D3]; now simplify_map_eq. }
  split.
  - apply (Hgen w2). exact (new_set_layers _ _ _ _ _ _ Hnew).
  - now apply (Hgen w).
Qed.

(** X8. Models of different classes keep separate marker files but share
    the names of the parameter files: after one model saves under P and a
    model of another class saves under the same P, each marker file names
    P, while both parameter files now hold the second model's graphs and
    parameters. *)
Theorem classes_share_parameter_files_not_markers v1 v2 s1 s2 o1 o2 w1 w2 m1 m2
    (P : string) (world : Keras.world) :
  new v1 s1 o1 w1 = Ok m1 ->
  new v2 s2 o2 w2 = Ok m2 ->
  v1 <> v2 ->
  exists g2 gb2 world2,
    model m2 = Some g2 /\ model_base m2 = Some gb2 /\
    save_weights m2 P (snd (save_weights m1 P world)) = (Ok tt, world2) /\
    Keras.fs world2 !! (("epoch_" +:+ model_name v1) +:+ ".txt") = Some (Keras.Text P) /\
    Keras.fs world2 !! (("epoch_" +:+ model_name v2) +:+ ".txt") = Some (Keras.Text P) /\
    Keras.fs world2 !! (P +:+ ".model.h5") = Some (Keras.H5 g2 w2) /\
    Keras.fs world2 !! (P +:+ ".model.base.h5") = Some (Keras.H5 gb2 w2).
Proof.
  intros Hnew1 Hnew2 Hv.
  destruct (save_weights_run v1 s1 o1 w1 m1 P world Hnew1) as (g & gb & _ & _ & Hrun).
  destruct (save_weights_run v2 s2 o2 w2 m2 P (snd (save_weights m1 P world)) Hnew2)
    as (g2 & gb2 & Hg2 & Hgb2 & Hrun2).
  exists g2, gb2. eexists. split; [exact Hg2|]. split; [exact Hgb2|].
  split; [exact Hrun2|]. cbn [Keras.fs]. rewrite Hrun. cbn [snd Keras.fs].
  pose proof (marker_not_h5 (model_name v1) P ".model.h5" eq_refl) as M1.
  pose proof (marker_not_h5 (model_name v1) P ".model.base.h5" eq_refl) as M2.
  pose proof (marker_not_h5 (model_name v2) P ".model.h5" eq_refl) as M3.
  pose proof (marker_not_h5 (model_name v2) P ".model.base.h5" eq_refl) as M4.
  pose proof (train_file_never_base_file P P) as N3.
  pose proof (marker_files_distinct v1 v2 Hv) as D.
  repeat split; simplify_map_eq; reflexivity.
Qed.

(** X9. save_weights never calls into the back end and never removes a
    file, whatever the instance and whether or not it raises part-way. *)
Theorem save_weights_only_adds_files (self : instance) (filename : string)
    (world : Keras.world) :
  Keras.calls (snd (save_weights self filename world)) = Keras.calls world /\
  forall q, is_Some (Keras.fs world !! q) ->
            is_Some (Keras.fs (snd (save_weights self filename world)) !! q).
Proof.
  unfold save_weights, BaseModel.save_weights.
  destruct (model self) as [g|], (layers self) as [w|], (model_base self) as [gb|],
    (_model_name self) as [name|]; cbn; (split; [reflexivity|]); intros q Hq;
    rewrite ?lookup_insert; repeat case_decide; eauto.
Qed.


(** ** Inference *)

Lemma setitem_slice_length {A} (row value row' : list A) (stop : nat) :
  Np.setitem_slice row stop value = Ok row' -> length row' = length row.
Proof.
  unfold Np.setitem_slice.
  pose proof (Nat.le_min_r stop (length row)) as Hmin.
  destruct (Nat.eqb_spec (length value) (Nat.min stop (length row))) as [E|_].
  - intros [= <-]. rewrite length_app, length_drop. lia.
  - destruct value as [|v [|v' value]]; [discriminate| |discriminate].
    intros [= <-]. rewrite length_app, length_replicate, length_drop. lia.
Qed.

(** [forward] looks at its argument only in the copy into the buffer. *)
Lemma forward_through_buffer (m : instance) (d1 d2 : list frame) (world : Keras.world) :
  (forall shape x, input_shape m = Some shape -> Np.zeros 1 shape = Ok x ->
     Np.setitem_row_slice x 0 (length d1) d1 = Np.setitem_row_slice x 0 (length d2) d2) ->
  SpeechModel251BN.forward m d1 world = SpeechModel251BN.forward m d2 world.
Proof.
  intros Hbuf. unfold SpeechModel251BN.forward.
  change (Np.zeros_int32 1) with (Ok [0] : result (list Z)).
  change (Z.to_nat 1) with 1%nat. cbn [seq for_range].
  unfold bind, lift, ret.
  destruct (attr TypeError (output_shape m)) as [out|e]; [|reflexivity].
  destruct (Np.setitem_int32 [0] 0 (fst out)) as [in_len|e]; [|reflexivity].
  destruct (input_shape m) as [shape|]; cbn [attr]; [|reflexivity].
  destruct (Np.zeros 1 shape) as [x|e] eqn:Ez; [|reflexivity].
  now rewrite (Hbuf shape x eq_refl Ez).
Qed.

(** The value [forward] returns once the copy has gone through. *)
Lemma forward_value v T F C o w m data world :
  new v (T, F, C) o w = Ok m ->
  Z.of_nat (length data) <= T ->
  T / 8 <= Np.int32_max ->
  fst (forward m data world) =
  let x := [data ++ replicate (Z.to_nat T - length data) (frame_zeros F C)] in
  let r := ctc_decode (predict w x) [T / 8] true 100 1 in
  let? r00 := index (fst r) 0 in
  let? r10 := index r00 0 in
  Ok (Ops.ctc_decode_delete_tail_blank r10 blank).
Proof.
  intros Hnew Hn HL.
  destruct (new_inv _ _ _ _ _ Hnew) as (Hc & Hi & Ho & _ & _ & Hw & _ & (g & Hg & _)).
  rewrite forward_concrete by (rewrite Hc; apply class_of_concrete).
  unfold SpeechModel251BN.forward.
  rewrite Hi, Ho, Hg, Hw. cbn [attr fst].
  change (Np.zeros_int32 1) with (Ok [0] : result (list Z)).
  change (Z.to_nat 1) with 1%nat. cbn [seq for_range].
  unfold bind, lift, ret. cbn [fst].
  rewrite setitem_int32_fits.
  2:{ unfold Np.int32_min. split; [|exact HL].
      transitivity 0; [lia|]. apply Z.div_pos; lia. }
  rewrite zeros_row by lia.
  unfold Np.setitem_row_slice. cbn [lookup list_lookup].
  rewrite setitem_slice_fits by (rewrite length_replicate; lia).
  rewrite drop_replicate. cbn.
  unfold Keras.eval, Keras.numpy.
  destruct (index _ 0) as [r00|e]; cbn; [|reflexivity].
  destruct (String.eqb _ _); destruct (index r00 0); reflexivity.
Qed.

(** X10. Silence after the utterance changes nothing: forward on a
    sequence followed by zero frames, as long as the whole still fits the
    maximum input length, returns what it returns on the sequence alone
    and makes the same calls, because the buffer handed to the network is
    the same. In particular the empty sequence and any run of zero
    frames are indistinguishable. *)
Theorem forward_ignores_trailing_zero_frames v T F C o w m (data : list frame)
    (k : nat) (world : Keras.world) :
  new v (T, F, C) o w = Ok m ->
  Z.of_nat (length data + k) <= T ->
  forward m (data ++ replicate k (frame_zeros F C)) world = forward m data world.
Proof.
  intros Hnew Hfit.
  destruct (new_inv _ _ _ _ _ Hnew) as (Hc & Hi & _).
  rewrite !forward_concrete by (rewrite Hc; apply class_of_concrete).
  apply forward_through_buffer. intros shape x Hs Hz.
  rewrite Hi in Hs. injection Hs as <-.
  rewrite zeros_row in Hz by lia. injection Hz as <-.
  unfold Np.setitem_row_slice. cbn [lookup list_lookup].
  rewrite !setitem_slice_fits
    by (rewrite ?length_app, !length_replicate; lia).
  rewrite !drop_replicate, length_app, length_replicate, <- app_assoc.
  rewrite <- replicate_add. do 4 f_equal. lia.
Qed.

(** X11. Whatever the length of its argument, forward on a constructed
    model either makes no call into the back end at all, or makes exactly
    two: predict on a batch of one buffer of exactly max-input-length
    frames, then the CTC decoder on predict's answer with sequence length
    output_shape[0], greedy=True, beam_width=100 and top_paths=1. No
    buffer of another length ever reaches the network. *)
Theorem forward_calls_are_well_shaped v T F C o w m (data : list frame)
    (world : Keras.world) :
  new v (T, F, C) o w = Ok m ->
  Keras.calls (snd (forward m data world)) = Keras.calls world \/
  exists buf,
    Z.of_nat (length buf) = T /\
    Keras.calls (snd (forward m data world)) =
      Keras.calls world ++
      [Keras.Predict w [buf];
       Keras.CtcDecode (predict w [buf]) [T / 8] true 100 1].
Proof.
  intros Hnew.
  destruct (new_inv _ _ _ _ _ Hnew) as (Hc & Hi & Ho & _ & _ & Hw & _ & (g & Hg & _)).
  rewrite forward_concrete by (rewrite Hc; apply class_of_concrete).
  pose proof (forward_steps m T F C _ o g w data world Hi Ho Hg Hw) as Hs.
  cbn [fst] in Hs.
  destruct (setitem_int32_cases (T / 8)) as [E|E]; rewrite E in Hs;
    [|left; now rewrite Hs].
  destruct (Z.lt_ge_cases T 0) as [Hneg|Hpos].
  { destruct (zeros_negative T F C Hneg) as [msg Ez]. rewrite Ez in Hs.
    left. now rewrite Hs. }
  rewrite zeros_row in Hs by exact Hpos.
  unfold Np.setitem_row_slice in Hs. cbn [lookup list_lookup] in Hs.
  destruct (Np.setitem_slice _ (length data) data) as [row'|e] eqn:Es;
    [|left; now rewrite Hs].
  right. exists row'. split.
  - rewrite (setitem_slice_length _ _ _ _ Es), length_replicate. lia.
  - rewrite Hs. unfold after_calls. cbn [Keras.calls insert list_insert].
    now rewrite <- app_assoc.
Qed.

(** X12. forward never touches the files, on any instance and whether or
    not it raises, and its result and its calls do not depend on them. *)
Theorem forward_leaves_files_alone (self : instance) (data : list frame)
    (world : Keras.world) (files : gmap string Keras.file) :
  Keras.fs (snd (forward self data world)) = Keras.fs world /\
  fst (forward self data {| Keras.fs := files; Keras.calls := Keras.calls world |}) =
    fst (forward self data world) /\
  Keras.calls (snd (forward self data
                      {| Keras.fs := files; Keras.calls := Keras.calls world |})) =
    Keras.calls (snd (forward self data world)).
Proof.
  assert (Hb : forall w0 : Keras.world,
    Keras.fs (snd (SpeechModel251BN.forward self data w0)) = Keras.fs w0 /\
    fst (SpeechModel251BN.forward self data
           {| Keras.fs := files; Keras.calls := Keras.calls w0 |}) =
      fst (SpeechModel251BN.forward self data w0) /\
    Keras.calls (snd (SpeechModel251BN.forward self data
           {| Keras.fs := files; Keras.calls := Keras.calls w0 |})) =
      Keras.calls (snd (SpeechModel251BN.forward self data w0))).
  { intros w0. unfold SpeechModel251BN.forward.
    change (Np.zeros_int32 1) with (Ok [0] : result (list Z)).
    change (Z.to_nat 1) with 1%nat. cbn [seq for_range].
    unfold bind, lift, ret.
    destruct (attr TypeError (output_shape self)) as [out|e]; [|now repeat split].
    destruct (Np.setitem_int32 [0] 0 (fst out)) as [in_len|e]; [|now repeat split].
    destruct (attr TypeError (input_shape self)) as [shape|e]; [|now repeat split].
    destruct (Np.zeros 1 shape) as [x|e]; [|now repeat split].
    destruct (Np.setitem_row_slice x 0 (length data) data) as [x'|e]; [|now repeat split].
    destruct (attr AttributeError (model_base self)) as [g|e]; [|now repeat split].
    destruct (attr AttributeError (layers self)) as [w|e]; [|now repeat split].
    cbn.
    destruct (index _ 0) as [r00|e]; [|now repeat split].
    destruct (index _ 0) as [r10|e]; now repeat split. }
  unfold forward. destruct (cls self); [now repeat split|apply Hb..].
Qed.

(** X14. When the input fits, forward returns the first row of the first
    decoded path with its tail cleaned by ctc_decode_delete_tail_blank,
    where the decoder was run on predict's answer for the padded buffer;
    if the decoder answers with no path, or with a path that has no row,
    forward raises IndexError. The installed TensorFlow version does not
    enter the result. *)
Theorem forward_returns_cleaned_first_row v T F C o w m (data : list frame)
    (world : Keras.world) :
  new v (T, F, C) o w = Ok m ->
  Z.of_nat (length data) <= T ->
  T / 8 <= Np.int32_max ->
  let buf := data ++ replicate (Z.to_nat T - length data) (frame_zeros F C) in
  let paths := fst (ctc_decode (predict w [buf]) [T / 8] true 100 1) in
  (forall batch row, paths !! 0%nat = Some batch -> batch !! 0%nat = Some row ->
     fst (forward m data world) = Ok (Ops.ctc_decode_delete_tail_blank row blank)) /\
  (paths !! 0%nat = None -> fst (forward m data world) = Raise IndexError) /\
  (forall batch, paths !! 0%nat = Some batch -> batch !! 0%nat = None ->
     fst (forward m data world) = Raise IndexError).
Proof.
  intros Hnew Hn HL buf paths.
  rewrite (forward_value _ _ _ _ _ _ _ _ world Hnew Hn HL).
  cbn zeta. fold buf. fold paths. unfold index, and_then.
  split; [|split].
  - intros batch row -> ->. reflexivity.
  - intros ->. reflexivity.
  - intros batch -> ->. reflexivity.
Qed.

End Coverage.

(** ** The claims at concrete models

    The statements above, run on the small back end: the default shape
    (1600, 200, 1) with 1428 classes, and a short model of 16 frames. *)

#[local] Existing Instance toy_backend.

Lemma output_length_is_input_length_div_8_witness :
  (exists m, @new toy_backend V251BN (1600, 200, 1) 1428 0 = Ok m /\
             output_shape m = Some (200, 1428) /\ _pool_size m = Some 8) /\
  (exists m, @new toy_backend V251 (1600, 200, 1) 1428 0 = Ok m /\
             output_shape m = Some (200, 1428) /\ _pool_size m = Some 8) /\
  (exists m, @new toy_backend V25 (1600, 200, 1) 1428 0 = Ok m /\
             output_shape m = Some (200, 1428) /\ _pool_size m = Some 8) /\
  (exists m, @new toy_backend V24 (1607, 200, 1) 1428 0 = Ok m /\
             output_shape m = Some (200, 1428) /\ _pool_size m = Some 8).
Proof.
  split; [|split; [|split]];
    match goal with
    | |- exists m, @new _ ?v (?T, ?F, ?C) ?o ?w = Ok m /\ _ =>
        destruct (@output_length_is_input_length_div_8 toy_backend v T F C o w
                    ltac:(vm_compute; discriminate) ltac:(vm_compute; discriminate)
                    ltac:(vm_compute; discriminate) ltac:(vm_compute; discriminate))
          as (m & Hnew & _ & Hp & len & Ho & Hlen & _);
        exists m; split; [exact Hnew|]; split; [|exact Hp];
        rewrite Ho, Hlen; reflexivity
    end.
Defined.

Lemma base_model_methods_not_implemented_witness :
  @get_loss_function toy_backend BaseModel.__init__ =
    Raise (Exception "method not implemented") /\
  @forward toy_backend BaseModel.__init__ [1; 2; 3] empty_world =
    (Raise (Exception "method not implemented"), empty_world).
Proof.
  apply (@base_model_methods_not_implemented toy_backend BaseModel.__init__
           [1; 2; 3] empty_world).
  reflexivity.
Defined.

Lemma forward_rejects_overlong_input_witness :
  exists m, @new toy_backend V24 (16, 200, 1) 1428 7 = Ok m /\
  exists e, forward m (replicate 17 5) empty_world = (Raise e, empty_world) /\
            (e = OverflowError \/ exists msg, e = ValueError msg).
Proof.
  eexists. split; [reflexivity|].
  apply (@forward_rejects_overlong_input toy_backend V24 (16, 200, 1) 1428 7).
  - reflexivity.
  - vm_compute. reflexivity.
  - discriminate.
Defined.

Lemma forward_pads_with_zeros_witness :
  exists m, @new toy_backend V24 (16, 200, 1) 1428 7 = Ok m /\
  exists buf,
    predict_inputs (Keras.calls (snd (forward m [1; 2; 3] empty_world))) = [[buf]] /\
    Z.of_nat (length buf) = 16 /\
    (forall i, (i < 3)%nat -> buf !! i = [1; 2; 3] !! i) /\
    (forall i, (3 <= i)%nat -> Z.of_nat i < 16 -> buf !! i = Some 0).
Proof.
  eexists. split; [reflexivity|].
  apply (@forward_pads_with_zeros toy_backend V24 16 200 1 1428 7 _ [1; 2; 3]
           empty_world).
  - reflexivity.
  - vm_compute. discriminate.
  - vm_compute. discriminate.
Defined.

Lemma concrete_loss_returns_y_pred_witness :
  exists m, @new toy_backend V25 default_input_shape default_output_size 0 = Ok m /\
  exists d f,
    get_loss_function m = Ok d /\ dom d = {["ctc"]} /\ d !! "ctc" = Some f /\
    forall y_true y_pred : Z, f y_true y_pred = y_pred.
Proof.
  eexists. split; [reflexivity|].
  apply (@concrete_loss_returns_y_pred toy_backend V25 default_input_shape
           default_output_size 0).
  reflexivity.
Defined.

Lemma save_weights_writes_three_files_witness :
  exists m world',
    @new toy_backend V251 default_input_shape default_output_size 7 = Ok m /\
    save_weights m "save_models/ckpt" empty_world = (Ok tt, world') /\
    (exists g, Keras.fs world' !! "save_models/ckpt.model.h5" = Some (Keras.H5 g 7)) /\
    (exists g, Keras.fs world' !! "save_models/ckpt.model.base.h5" = Some (Keras.H5 g 7)) /\
    Keras.fs world' !! "epoch_SpeechModel251.txt" = Some (Keras.Text "save_models/ckpt").
Proof.
  destruct (@save_weights_writes_three_files toy_backend V251 default_input_shape
              default_output_size 7 _ "save_models/ckpt" empty_world eq_refl)
    as (world' & g & gb & Hs & _ & _ & H1 & H2 & H3 & _).
  eexists _, world'. split; [reflexivity|]. split; [exact Hs|].
  split; [now exists g|]. split; [now exists gb|exact H3].
Defined.

(** C9 as stated fails: after save_weights("ckpt") in an empty directory,
    load_weights("ckpt") finds no file of that name and raises. *)
Lemma load_weights_same_path_fails :
  exists m world',
    @new toy_backend V24 default_input_shape default_output_size 7 = Ok m /\
    save_weights m "ckpt" empty_world = (Ok tt, world') /\
    Keras.fs world' !! "ckpt" = None /\
    load_weights m "ckpt" world' = (Raise OSError, world').
Proof.
  eexists _, _. split; [reflexivity|]. split; [reflexivity|].
  split; vm_compute; reflexivity.
Qed.

Lemma load_saved_train_file_restores_witness :
  exists m world',
    @new toy_backend V24 default_input_shape default_output_size 7 = Ok m /\
    save_weights m "ckpt" empty_world = (Ok tt, world') /\
    exists m',
      load_weights (set_layers 99 m) "ckpt.model.h5" world' = (Ok m', world') /\
      layers m' = Some 7 /\
      forall data ws, forward m' data ws = forward m data ws.
Proof.
  eexists _, _. split; [reflexivity|]. split; [reflexivity|].
  apply (@load_saved_train_file_restores toy_backend V24 default_input_shape
           default_output_size 7 _ "ckpt" empty_world _ 99); reflexivity.
Defined.

Lemma forward_decodes_with_output_length_witness :
  exists m, @new toy_backend V24 (16, 200, 1) 1428 7 = Ok m /\
  decode_lengths (Keras.calls (snd (forward m [1; 2; 3] empty_world))) = [[2]] /\
  decode_lengths (Keras.calls (snd (forward m [] empty_world))) = [[2]].
Proof.
  eexists. split; [reflexivity|]. split.
  - apply (@forward_decodes_with_output_length toy_backend V24 16 200 1 1428 7 _
             [1; 2; 3] empty_world); [reflexivity | vm_compute; discriminate..].
  - apply (@forward_decodes_with_output_length toy_backend V24 16 200 1 1428 7 _
             [] empty_world); [reflexivity | vm_compute; discriminate..].
Defined.

(** ** The further properties at concrete models *)

Lemma graphs_agree_with_declared_shapes_witness :
  exists m g gb,
    @new toy_backend V25 (1600, 200, 1) 1428 0 = Ok m /\
    model m = Some g /\ model_base m = Some gb /\
    Keras.pools gb = [2; 2; 2; 1] /\
    Keras.reshape gb = (Keras.pooled 1600 (Keras.pools gb),
                        Keras.pooled 200 (Keras.pools gb) * 128) /\
    output_shape m = Some (Keras.pooled 1600 (Keras.pools gb), Keras.classes gb).
Proof.
  destruct (@graphs_agree_with_declared_shapes toy_backend V25 1600 200 1 1428 0 _
              eq_refl)
    as (g & gb & Hg & Hgb & _ & _ & _ & Hr & Ho & _).
  eexists _, g, gb. split; [reflexivity|]. split; [exact Hg|]. split; [exact Hgb|].
  split; [|split; [exact Hr|exact Ho]].
  cbn in Hgb. now injection Hgb as <-.
Defined.

Lemma checkpointing_without_graphs_raises_witness :
  @save_weights toy_backend BaseModel.__init__ "ckpt" empty_world =
    (Raise AttributeError, empty_world) /\
  @load_weights toy_backend BaseModel.__init__ "ckpt" empty_world =
    (Raise AttributeError, empty_world).
Proof.
  apply (@checkpointing_without_graphs_raises toy_backend BaseModel.__init__).
  reflexivity.
Defined.


Lemma second_checkpoint_keeps_first_witness :
  exists m world2,
    @new toy_backend V251 default_input_shape default_output_size 7 = Ok m /\
    save_weights (set_layers 8 m) "epoch2" (snd (save_weights m "epoch1" empty_world)) =
      (Ok tt, world2) /\
    (exists g, Keras.fs world2 !! "epoch1.model.h5" = Some (Keras.H5 g 7)) /\
    (exists g, Keras.fs world2 !! "epoch2.model.h5" = Some (Keras.H5 g 8)) /\
    Keras.fs world2 !! "epoch_SpeechModel251.txt" = Some (Keras.Text "epoch2").
Proof.
  destruct (@second_checkpoint_keeps_first toy_backend V251 default_input_shape
              default_output_size 7 _ "epoch1" "epoch2" empty_world 8 eq_refl
              ltac:(discriminate))
    as (g & gb & world2 & _ & _ & Hs & H1 & _ & H3 & _ & H5).
  eexists _, world2. split; [reflexivity|]. split; [exact Hs|].
  split; [now exists g|]. split; [now exists g|exact H5].
Defined.

Lemma save_weights_overwrites_witness :
  exists m,
    @new toy_backend V24 default_input_shape default_output_size 7 = Ok m /\
    save_weights (set_layers 8 m) "ckpt" (snd (save_weights m "ckpt" empty_world)) =
      save_weights (set_layers 8 m) "ckpt" empty_world.
Proof.
  eexists. split; [reflexivity|].
  apply (@save_weights_overwrites toy_backend V24 default_input_shape
           default_output_size 7 _ "ckpt" empty_world 8 eq_refl).
Defined.

Lemma classes_share_parameter_files_not_markers_witness :
  exists m1 m2 world2,
    @new toy_backend V24 default_input_shape default_output_size 7 = Ok m1 /\
    @new toy_backend V25 default_input_shape default_output_size 8 = Ok m2 /\
    save_weights m2 "ckpt" (snd (save_weights m1 "ckpt" empty_world)) = (Ok tt, world2) /\
    Keras.fs world2 !! "epoch_SpeechModel24.txt" = Some (Keras.Text "ckpt") /\
    Keras.fs world2 !! "epoch_SpeechModel25.txt" = Some (Keras.Text "ckpt") /\
    (exists g, Keras.fs world2 !! "ckpt.model.h5" = Some (Keras.H5 g 8)).
Proof.
  destruct (@classes_share_parameter_files_not_markers toy_backend V24 V25
              default_input_shape default_input_shape default_output_size
              default_output_size 7 8 _ _ "ckpt" empty_world eq_refl eq_refl
              ltac:(discriminate))
    as (g2 & gb2 & world2 & _ & _ & Hs & H1 & H2 & H3 & _).
  eexists _, _, world2. split; [reflexivity|]. split; [reflexivity|].
  split; [exact Hs|]. split; [exact H1|]. split; [exact H2|now exists g2].
Defined.

Lemma forward_ignores_trailing_zero_frames_witness :
  exists m,
    @new toy_backend V24 (16, 200, 1) 1428 7 = Ok m /\
    forward m ([1; 2; 3] ++ replicate 5 0) empty_world = forward m [1; 2; 3] empty_world.
Proof.
  eexists. split; [reflexivity|].
  apply (@forward_ignores_trailing_zero_frames toy_backend V24 16 200 1 1428 7 _
           [1; 2; 3] 5 empty_world).
  - reflexivity.
  - vm_compute. discriminate.
Defined.

Lemma forward_calls_are_well_shaped_witness :
  exists m,
    @new toy_backend V24 (16, 200, 1) 1428 7 = Ok m /\
    (Keras.calls (snd (forward m (replicate 40 1) empty_world)) = [] \/
     exists buf,
       Z.of_nat (length buf) = 16 /\
       Keras.calls (snd (forward m (replicate 40 1) empty_world)) =
         [] ++ [Keras.Predict 7 [buf];
                Keras.CtcDecode (predict 7 [buf]) [16 / 8] true 100 1]).
Proof.
  eexists. split; [reflexivity|].
  apply (@forward_calls_are_well_shaped toy_backend V24 16 200 1 1428 7 _
           (replicate 40 1) empty_world).
  reflexivity.
Defined.

Lemma forward_returns_cleaned_first_row_witness :
  exists m,
    @new toy_backend V24 (16, 200, 1) 1428 7 = Ok m /\
    fst (forward m [1; 2; 3] empty_world) =
      Ok (Ops.ctc_decode_delete_tail_blank [3; 5; -1; -1] (-1)).
Proof.
  eexists. split; [reflexivity|].
  apply (proj1 (@forward_returns_cleaned_first_row toy_backend V24 16 200 1 1428 7 _
                  [1; 2; 3] empty_world eq_refl ltac:(vm_compute; discriminate)
                  ltac:(vm_compute; discriminate)) [[3; 5; -1; -1]]);
    reflexivity.
Defined.
